(** * DASS-21 scoring service: a shallow embedding of [main.py] and [schemas.py]

    The development follows the Python source: the module-level tables
    ([DEPRESSION_IDX], [DEP_I], [DEP_THRESH], ...), the helper [severity_for]
    and the endpoint [score_dass].  Python integers are [Z], Python lists are
    [list], strings are [string], raised exceptions are the [Raise] branch of
    the [py] type, and the storage collaborator [create_document] of
    [database.py] is a parameter that transforms an abstract store.  The
    routes [list_assessments] and [test_database] and the parsing of the
    request schema are modelled the same way, with [get_documents], the
    database handle and the environment as parameters. *)

From Stdlib Require Import ZArith List Lia.
From stdpp Require Import base option list strings pretty gmap.

Open Scope Z_scope.

(** ** Python exceptions and computations that may raise *)

Inductive py_error : Type :=
  | HTTPException (status_code : Z) (detail : string)
  | IndexError
  | ValidationError.

Inductive py (A : Type) : Type :=
  | Ok (a : A)
  | Raise (e : py_error).
Arguments Ok {A} a.
Arguments Raise {A} e.

#[global] Instance py_ret : MRet py := fun _ a => Ok a.
#[global] Instance py_bind : MBind py := fun _ _ f m =>
  match m with
  | Ok a => f a
  | Raise e => Raise e
  end.

(** ** Python built-ins used by the endpoint *)

Module Py.

(** [l[i]] on a list: negative indices count from the end, anything
    outside [-len, len) raises [IndexError]. *)
Definition getitem (l : list Z) (i : Z) : py Z :=
  let n := Z.of_nat (length l) in
  let j := if i <? 0 then i + n else i in
  if (0 <=? j) && (j <? n)
  then match l !! Z.to_nat j with
       | Some x => Ok x
       | None => Raise IndexError
       end
  else Raise IndexError.

(** [sum(xs)]: left-to-right accumulation starting from 0. *)
Definition sum (xs : list Z) : Z := foldl Z.add 0 xs.

(** [a in t] for a tuple of integers. *)
Definition contains (a : Z) (t : list Z) : bool := existsb (Z.eqb a) t.

(** [any(p(a) for a in xs)]. *)
Definition any {A} (p : A -> bool) (xs : list A) : bool := existsb p xs.

End Py.

(** ** schemas.py *)

(** The request model.  The field constraints of the schema ([min_items],
    [max_items] on [answers]) are enforced when a request is parsed; the
    endpoint checks the list again itself, so [answers] is any list here. *)
Record DASSAssessment : Type := {
  student_name : option string;
  student_email : option string;
  age : option Z;
  context : option string;
  answers : list Z
}.

Record DASSResult : Type := {
  depression_score : Z;
  anxiety_score : Z;
  stress_score : Z;
  depression_severity : string;
  anxiety_severity : string;
  stress_severity : string;
  total_score : Z;
  assessment_id : option string
}.

(** The [Literal[...]] type of the three severity fields. *)
Definition severity_literal : list string :=
  ["Normal"; "Mild"; "Moderate"; "Severe"; "Extremely Severe"].

(** [DASSResult(...)]: the constructor validates the three labels against
    the literal type and leaves [assessment_id] at its default [None]. *)
Definition new_DASSResult (dep anx stress : Z) (dsev asev ssev : string)
    (total : Z) : py DASSResult :=
  if forallb (fun s => bool_decide (s ∈ severity_literal)) [dsev; asev; ssev]
  then Ok {| depression_score := dep;
             anxiety_score := anx;
             stress_score := stress;
             depression_severity := dsev;
             anxiety_severity := asev;
             stress_severity := ssev;
             total_score := total;
             assessment_id := None |}
  else Raise ValidationError.

(** [result.assessment_id = inserted_id]. *)
Definition set_assessment_id (r : DASSResult) (inserted_id : string) : DASSResult :=
  {| depression_score := depression_score r;
     anxiety_score := anxiety_score r;
     stress_score := stress_score r;
     depression_severity := depression_severity r;
     anxiety_severity := anxiety_severity r;
     stress_severity := stress_severity r;
     total_score := total_score r;
     assessment_id := Some inserted_id |}.

(** Values stored in the persisted document. *)
Inductive pyval : Type :=
  | VNone
  | VInt (z : Z)
  | VStr (s : string)
  | VList (l : list Z).

Definition of_opt_str (o : option string) : pyval :=
  match o with Some s => VStr s | None => VNone end.

Definition of_opt_int (o : option Z) : pyval :=
  match o with Some z => VInt z | None => VNone end.

(** [assessment.model_dump()]. *)
Definition model_dump (a : DASSAssessment) : gmap string pyval :=
  <["answers" := VList (answers a)]>
  (<["context" := of_opt_str (context a)]>
  (<["age" := of_opt_int (age a)]>
  (<["student_email" := of_opt_str (student_email a)]>
  (<["student_name" := of_opt_str (student_name a)]> ∅)))).

(** ** main.py: scoring configuration *)

Definition DEPRESSION_IDX : list Z := [3; 5; 10; 13; 16; 17; 21].
Definition ANXIETY_IDX : list Z := [2; 4; 7; 9; 15; 19; 20].
Definition STRESS_IDX : list Z := [1; 6; 8; 11; 12; 14; 18].

Definition DEP_I : list Z := map (fun i => i - 1) DEPRESSION_IDX.
Definition ANX_I : list Z := map (fun i => i - 1) ANXIETY_IDX.
Definition STR_I : list Z := map (fun i => i - 1) STRESS_IDX.

Definition band : Type := (Z * Z * string)%type.

Definition DEP_THRESH : list band :=
  [(0, 4, "Normal"); (5, 6, "Mild"); (7, 10, "Moderate"); (11, 13, "Severe");
   (14, 42, "Extremely Severe")].
Definition ANX_THRESH : list band :=
  [(0, 3, "Normal"); (4, 5, "Mild"); (6, 7, "Moderate"); (8, 9, "Severe");
   (10, 42, "Extremely Severe")].
Definition STR_THRESH : list band :=
  [(0, 7, "Normal"); (8, 9, "Mild"); (10, 12, "Moderate"); (13, 16, "Severe");
   (17, 42, "Extremely Severe")].

(** [lo <= score <= hi]. *)
Definition in_band (score : Z) (b : band) : bool :=
  let '(lo, hi, _) := b in (lo <=? score) && (score <=? hi).

Definition band_label (b : band) : string := let '(_, _, label) := b in label.

(** The [for] loop of [severity_for]: [Some label] when the loop returns,
    [None] when it runs off the end of the table. *)
Fixpoint scan_bands (score : Z) (bands : list band) : option string :=
  match bands with
  | [] => None
  | b :: rest => if in_band score b then Some (band_label b) else scan_bands score rest
  end.

(** [severity_for]: the loop, then the fallback [bands[-1][2]], which raises
    [IndexError] on an empty table. *)
Definition severity_for (score : Z) (bands : list band) : py string :=
  match scan_bands score bands with
  | Some label => Ok label
  | None => match last bands with
            | Some b => Ok (band_label b)
            | None => Raise IndexError
            end
  end.

(** [sum(answers[i] for i in idx)]. *)
Definition sum_at (answers : list Z) (idx : list Z) : py Z :=
  xs ← mapM (Py.getitem answers) idx; Ok (Py.sum xs).

(** The guard of [score_dass]:
    [len(answers) != 21 or any(a not in (0,1,2,3) for a in answers)]. *)
Definition rejected (answers : list Z) : bool :=
  negb (Z.of_nat (length answers) =? 21)
  || Py.any (fun a => negb (Py.contains a [0; 1; 2; 3])) answers.

Definition bad_request : py_error :=
  HTTPException 400 "answers must be 21 integers each 0-3".

(** The three sums and the construction of [result] in [score_dass]. *)
Definition compute_result (answers : list Z) : py DASSResult :=
  dep ← sum_at answers DEP_I;
  anx ← sum_at answers ANX_I;
  stress ← sum_at answers STR_I;
  dsev ← severity_for dep DEP_THRESH;
  asev ← severity_for anx ANX_THRESH;
  ssev ← severity_for stress STR_THRESH;
  new_DASSResult dep anx stress dsev asev ssev (Py.sum answers).

(** [doc = assessment.model_dump(); doc.update({...})]. *)
Definition document (assessment : DASSAssessment) (result : DASSResult)
    : gmap string pyval :=
  <["total_score" := VInt (total_score result)]>
  (<["stress_severity" := VStr (stress_severity result)]>
  (<["anxiety_severity" := VStr (anxiety_severity result)]>
  (<["depression_severity" := VStr (depression_severity result)]>
  (<["stress_score" := VInt (stress_score result)]>
  (<["anxiety_score" := VInt (anxiety_score result)]>
  (<["depression_score" := VInt (depression_score result)]>
  (model_dump assessment))))))).

(** Outcome of one call of the storage collaborator: it returns the new
    document's identity or raises an [Exception]. *)
Inductive persisted : Type :=
  | Inserted (inserted_id : string)
  | Failed (reason : string).

Section Endpoint.

(** The backing store and [database.create_document], which the endpoint
    only calls. *)
Variable Store : Type.
Variable create_document :
  string -> gmap string pyval -> Store -> persisted * Store.

(** [score_dass]: guard, scoring, then best-effort persistence inside
    [try ... except Exception: pass]. *)
Definition score_dass (assessment : DASSAssessment) (st : Store)
    : py DASSResult * Store :=
  if rejected (answers assessment) then (Raise bad_request, st)
  else
    match compute_result (answers assessment) with
    | Raise e => (Raise e, st)
    | Ok result =>
        match create_document "dassassessment" (document assessment result) st with
        | (Inserted inserted_id, st') => (Ok (set_assessment_id result inserted_id), st')
        | (Failed _, st') => (Ok result, st')
        end
    end.

End Endpoint.

Arguments score_dass {Store} create_document assessment st.

(** ** Vocabulary of the specification *)

(** A valid input: exactly 21 answers, each one of 0, 1, 2, 3. *)
Definition valid_answers (l : list Z) : Prop :=
  length l = 21%nat ∧ Forall (fun a => a ∈ [0; 1; 2; 3]) l.

(** The three subscales and the table each one is scored with. *)
Inductive subscale : Type := Depression | Anxiety | Stress.

Definition thresholds (k : subscale) : list band :=
  match k with
  | Depression => DEP_THRESH
  | Anxiety => ANX_THRESH
  | Stress => STR_THRESH
  end.

Definition items_1based (k : subscale) : list Z :=
  match k with
  | Depression => DEPRESSION_IDX
  | Anxiety => ANXIETY_IDX
  | Stress => STRESS_IDX
  end.

Definition items_0based (k : subscale) : list Z :=
  match k with
  | Depression => DEP_I
  | Anxiety => ANX_I
  | Stress => STR_I
  end.

(** The severity tables as the specification prints them. *)
Definition spec_label (k : subscale) (s : Z) : string :=
  match k with
  | Depression =>
      if s <=? 4 then "Normal" else if s <=? 6 then "Mild"
      else if s <=? 10 then "Moderate" else if s <=? 13 then "Severe"
      else "Extremely Severe"
  | Anxiety =>
      if s <=? 3 then "Normal" else if s <=? 5 then "Mild"
      else if s <=? 7 then "Moderate" else if s <=? 9 then "Severe"
      else "Extremely Severe"
  | Stress =>
      if s <=? 7 then "Normal" else if s <=? 9 then "Mild"
      else if s <=? 12 then "Moderate" else if s <=? 16 then "Severe"
      else "Extremely Severe"
  end.

(** A table is contiguous from [start] when every band is non-empty and
    begins right after the previous one ends. *)
Fixpoint contiguous (start : Z) (bands : list band) : Prop :=
  match bands with
  | [] => True
  | (lo, hi, _) :: rest => lo = start ∧ lo ≤ hi ∧ contiguous (hi + 1) rest
  end.

(** The last score a contiguous table covers. *)
Fixpoint covered_upto (start : Z) (bands : list band) : Z :=
  match bands with
  | [] => start - 1
  | (_, hi, _) :: rest => covered_upto (hi + 1) rest
  end.

(** The item numbers of a subscale as a finite set, in the numbering of the
    published scale and in the numbering of the answers array. *)
Definition item_set (k : subscale) : gset Z := list_to_set (items_1based k).
Definition index_set (k : subscale) : gset Z := list_to_set (items_0based k).

(** The answers at a list of array positions, read without bounds checks. *)
Definition answers_at (l : list Z) (idx : list Z) : list Z :=
  map (fun i => nth (Z.to_nat i) l 0) idx.

(** The result [score_dass] builds from a valid list of answers. *)
Definition scored (l : list Z) : DASSResult :=
  let dep := Py.sum (answers_at l DEP_I) in
  let anx := Py.sum (answers_at l ANX_I) in
  let stress := Py.sum (answers_at l STR_I) in
  {| depression_score := dep;
     anxiety_score := anx;
     stress_score := stress;
     depression_severity := spec_label Depression dep;
     anxiety_severity := spec_label Anxiety anx;
     stress_severity := spec_label Stress stress;
     total_score := Py.sum l;
     assessment_id := None |}.

(** The sum of the answers to a list of items of the published scale: item
    [i] (numbered from 1) is stored at array position [i - 1]. *)
Definition sum_items (l : list Z) (items : list Z) : Z :=
  foldr (fun i acc => nth (Z.to_nat (i - 1)) l 0 + acc) 0 items.

(** The six scoring fields of a result. *)
Definition scoring_fields (r : DASSResult) : Z * Z * Z * string * string * string :=
  (depression_score r, anxiety_score r, stress_score r,
   depression_severity r, anxiety_severity r, stress_severity r).

(** A collaborator whose backing store is unavailable: every call raises and
    leaves the store as it was. *)
Definition unavailable (collection : string) (doc : gmap string pyval)
    (st : list (gmap string pyval)) : persisted * list (gmap string pyval) :=
  (Failed "Database not available", st).

(** A collaborator that appends the document to an in-memory collection and
    returns its position as the identity. *)
Definition in_memory (collection : string) (doc : gmap string pyval)
    (st : list (gmap string pyval)) : persisted * list (gmap string pyval) :=
  (Inserted (pretty (length st)), st ++ [doc]).

(** Two sample requests. *)
Definition all_zeros : DASSAssessment :=
  {| student_name := None; student_email := None; age := None; context := None;
     answers := replicate 21 0 |}.

Definition all_threes : DASSAssessment :=
  {| student_name := Some "Ada"; student_email := None; age := Some 19;
     context := None; answers := replicate 21 3 |}.

(** ** The rest of the service *)

(** The position of a label in the order of the [Literal] type, from
    "Normal" (0) to "Extremely Severe" (4). *)
Definition severity_rank (label : string) : option nat :=
  fst <$> list_find (fun l => l = label) severity_literal.

#[global] Instance subscale_eq_dec : EqDecision subscale.
Proof. solve_decision. Defined.

(** Whether the age of a request body satisfies [ge=5, le=120]. *)
Definition age_in_range (body : DASSAssessment) : Prop :=
  match age body with
  | Some n => 5 ≤ n ≤ 120
  | None => True
  end.

(** The score and the label of one subscale in a result. *)
Definition score_of (k : subscale) (r : DASSResult) : Z :=
  match k with
  | Depression => depression_score r
  | Anxiety => anxiety_score r
  | Stress => stress_score r
  end.

Definition severity_of (k : subscale) (r : DASSResult) : string :=
  match k with
  | Depression => depression_severity r
  | Anxiety => anxiety_severity r
  | Stress => stress_severity r
  end.

(** A collaborator wrapped so that every call is appended to a log kept
    beside its store. *)
Definition traced {Store : Type}
    (cd : string → gmap string pyval → Store → persisted * Store)
    (collection : string) (doc : gmap string pyval)
    (st : list (string * gmap string pyval) * Store)
    : persisted * (list (string * gmap string pyval) * Store) :=
  let '(outcome, st') := cd collection doc st.2 in
  (outcome, (st.1 ++ [(collection, doc)], st')).

(** The keys of the persisted document. *)
Definition request_keys : gset string :=
  {[ "student_name"; "student_email"; "age"; "context"; "answers" ]}.

Definition scoring_keys : gset string :=
  {[ "depression_score"; "anxiety_score"; "stress_score";
     "depression_severity"; "anxiety_severity"; "stress_severity";
     "total_score" ]}.

(** Parsing of the request body into [DASSAssessment], for a body whose
    fields already have the declared types: [age] is checked against
    [ge=5, le=120] when present, [answers] against [min_items=21,
    max_items=21]; the values of the answers are not constrained. *)
Definition parse_DASSAssessment (body : DASSAssessment) : py DASSAssessment :=
  let age_ok := match age body with
                | Some n => (5 <=? n) && (n <=? 120)
                | None => true
                end in
  let answers_ok := (21 <=? Z.of_nat (length (answers body)))
                    && (Z.of_nat (length (answers body)) <=? 21) in
  if age_ok && answers_ok then Ok body else Raise ValidationError.

(** The route [POST /api/score]: the body is parsed into the parameter type
    of [score_dass], which runs only when parsing succeeds. *)
Definition post_api_score {Store : Type}
    (create_document : string → gmap string pyval → Store → persisted * Store)
    (body : DASSAssessment) (st : Store) : py DASSResult * Store :=
  match parse_DASSAssessment body with
  | Ok assessment => score_dass create_document assessment st
  | Raise e => (Raise e, st)
  end.

(** *** [GET /api/assessments] *)

(** A field of a stored document: a Python [str], or a value of any other
    type (an ObjectId, a datetime, a number, a list, ...). *)
Inductive field (O : Type) : Type :=
  | FStr (s : string)
  | FOther (o : O).
Arguments FStr {O} s.
Arguments FOther {O} o.

(** Outcome of one call of [get_documents]: the documents, or a raised
    [Exception]. *)
Inductive fetched (O : Type) : Type :=
  | Fetched (docs : list (gmap string (field O)))
  | FetchFailed (reason : string).
Arguments Fetched {O} docs.
Arguments FetchFailed {O} reason.

Section Listing.

Context {O Store : Type}.

(** Python's [str] on the values that are not strings. *)
Variable str_other : O → string.

(** [database.get_documents], which the route only calls. *)
Variable get_documents : string → Z → Store → fetched O * Store.

(** [str(v)]: a string is returned as it is. *)
Definition py_str (v : field O) : string :=
  match v with
  | FStr s => s
  | FOther o => str_other o
  end.

(** The body of the loop: [if "_id" in d: d["_id"] = str(d["_id"])]. *)
Definition stringify_id (d : gmap string (field O)) : gmap string (field O) :=
  match d !! "_id" with
  | Some v => <["_id" := FStr (py_str v)]> d
  | None => d
  end.

(** [list_assessments]; [limit] is [None] when the caller gives none, and
    the default 20 is used. *)
Definition list_assessments (limit : option Z) (st : Store)
    : list (gmap string (field O)) * Store :=
  match get_documents "dassassessment" (default 20 limit) st with
  | (Fetched docs, st') => (map stringify_id docs, st')
  | (FetchFailed _, st') => ([], st')
  end.

End Listing.

(** *** [GET /test] *)

Record db_report : Type := {
  backend : string;
  database : string;
  database_url : option string;
  database_name : option string;
  connection_status : string;
  collections : list string
}.

Definition set_database (v : string) (r : db_report) : db_report :=
  {| backend := backend r; database := v; database_url := database_url r;
     database_name := database_name r;
     connection_status := connection_status r; collections := collections r |}.

Definition set_database_url (v : string) (r : db_report) : db_report :=
  {| backend := backend r; database := database r; database_url := Some v;
     database_name := database_name r;
     connection_status := connection_status r; collections := collections r |}.

Definition set_database_name (v : string) (r : db_report) : db_report :=
  {| backend := backend r; database := database r; database_url := database_url r;
     database_name := Some v;
     connection_status := connection_status r; collections := collections r |}.

Definition set_connection_status (v : string) (r : db_report) : db_report :=
  {| backend := backend r; database := database r; database_url := database_url r;
     database_name := database_name r;
     connection_status := v; collections := collections r |}.

Definition set_collections (v : list string) (r : db_report) : db_report :=
  {| backend := backend r; database := database r; database_url := database_url r;
     database_name := database_name r;
     connection_status := connection_status r; collections := v |}.

(** Outcome of [db.list_collection_names()]: the names, or a raised
    exception with its [str]. *)
Inductive listed : Type :=
  | Listed (names : list string)
  | ListFailed (message : string).

(** Truth value of [os.getenv(name)]: unset and empty are both false. *)
Definition truthy (v : option string) : bool :=
  match v with
  | Some s => negb (String.eqb s "")
  | None => false
  end.

(** [test_database]: [db] is [None] when the module-level handle is [None];
    a character of the exception text is one [ascii].  Nothing in the outer
    [try] raises, so its handler is not taken. *)
Definition test_database {Db : Type} (db : option Db)
    (getenv : string → option string) (list_collection_names : Db → listed)
    : db_report :=
  let response :=
    {| backend := "✅ Running"; database := "❌ Not Available";
       database_url := None; database_name := None;
       connection_status := "Not Connected"; collections := [] |} in
  match db with
  | Some handle =>
      let response := set_database "✅ Available" response in
      let response :=
        set_database_url
          (if truthy (getenv "DATABASE_URL") then "✅ Set" else "❌ Not Set")
          response in
      let response :=
        set_database_name
          (if truthy (getenv "DATABASE_NAME") then "✅ Set" else "❌ Not Set")
          response in
      let response := set_connection_status "Connected" response in
      match list_collection_names handle with
      | Listed names =>
          let response := set_collections (take 10 names) response in
          set_database "✅ Connected & Working" response
      | ListFailed message =>
          set_database ("⚠️  Connected but Error: " +:+ String.substring 0 50 message) response
      end
  | None => set_database "⚠️  Available but not initialized" response
  end.

(** ** The index sets *)

Lemma item_sets_disjoint :
  item_set Depression ## item_set Anxiety
  ∧ item_set Depression ## item_set Stress
  ∧ item_set Anxiety ## item_set Stress.
Proof. repeat split; intros i; unfold item_set; simpl; set_unfold; lia. Qed.

Lemma item_sets_cover (i : Z) :
  i ∈ item_set Depression ∪ item_set Anxiety ∪ item_set Stress ↔ 1 ≤ i ≤ 21.
Proof. unfold item_set; simpl; set_unfold; lia. Qed.

Lemma index_sets_disjoint :
  index_set Depression ## index_set Anxiety
  ∧ index_set Depression ## index_set Stress
  ∧ index_set Anxiety ## index_set Stress.
Proof. repeat split; intros i; unfold index_set; simpl; set_unfold; lia. Qed.

Lemma index_sets_cover (i : Z) :
  i ∈ index_set Depression ∪ index_set Anxiety ∪ index_set Stress ↔ 0 ≤ i ≤ 20.
Proof. unfold index_set; simpl; set_unfold; lia. Qed.

Lemma item_sets_size (k : subscale) :
  length (items_1based k) = 7%nat ∧ size (item_set k) = 7%nat
  ∧ size (index_set k) = 7%nat.
Proof. destruct k; repeat split; vm_compute; reflexivity. Qed.

(** The array indices are the item numbers shifted by one. *)
Lemma index_set_shift (k : subscale) (i : Z) :
  i ∈ index_set k ↔ i + 1 ∈ item_set k.
Proof. destruct k; unfold index_set, item_set; simpl; set_unfold; lia. Qed.

(** ** Severity tables *)

Lemma in_band_bounds (s : Z) (b : band) :
  in_band s b = true ↔ b.1.1 ≤ s ≤ b.1.2.
Proof. destruct b as [[lo hi] label]; unfold in_band; simpl. lia. Qed.

(** Every band of a contiguous table starts at or after the table does
    and ends at or before [covered_upto]. *)
Lemma contiguous_within (bands : list band) : ∀ start b,
  contiguous start bands → b ∈ bands →
  start ≤ b.1.1 ∧ b.1.1 ≤ b.1.2 ∧ b.1.2 ≤ covered_upto start bands.
Proof.
  induction bands as [|[[lo hi] label] rest IH]; intros start b Hc Hb.
  - by apply elem_of_nil in Hb.
  - simpl in Hc. destruct Hc as (<- & Hle & Hrest).
    assert (Hmono : ∀ l s, contiguous s l → s - 1 ≤ covered_upto s l).
    { clear. induction l as [|[[lo hi] label] l IHl]; intros s Hc; simpl in *.
      - lia.
      - destruct Hc as (<- & Hle & Hl). specialize (IHl _ Hl). lia. }
    apply elem_of_cons in Hb as [-> | Hb]; simpl.
    + specialize (Hmono _ _ Hrest). lia.
    + destruct (IH _ _ Hrest Hb) as (H1 & H2 & H3). lia.
Qed.

(** On a contiguous table the scan finds the one band that holds the score. *)
Lemma scan_contiguous (s : Z) (bands : list band) : ∀ start,
  contiguous start bands → start ≤ s ≤ covered_upto start bands →
  ∃ b, b ∈ bands ∧ in_band s b = true
       ∧ (∀ b', b' ∈ bands → in_band s b' = true → b' = b)
       ∧ scan_bands s bands = Some (band_label b).
Proof.
  induction bands as [|[[lo hi] label] rest IH]; intros start Hc Hs.
  - simpl in Hs. lia.
  - simpl in Hc, Hs. destruct Hc as (<- & Hle & Hrest).
    destruct (decide (s ≤ hi)) as [Hhi | Hhi].
    + exists (lo, hi, label). split; [apply elem_of_cons; by left|].
      assert (Hin : in_band s (lo, hi, label) = true) by (apply in_band_bounds; simpl; lia).
      split; [exact Hin|]. split.
      * intros b' Hb' Hin'. apply elem_of_cons in Hb' as [-> | Hb']; [done|].
        apply in_band_bounds in Hin'.
        destruct (contiguous_within _ _ _ Hrest Hb') as (H1 & _). lia.
      * cbn [scan_bands]. by rewrite Hin.
    + destruct (IH (hi + 1) Hrest ltac:(lia)) as (b & Hb & Hin & Huniq & Hscan).
      exists b. split; [apply elem_of_cons; by right|]. split; [exact Hin|].
      assert (Hout : in_band s (lo, hi, label) = false).
      { apply not_true_is_false. rewrite in_band_bounds. simpl. lia. }
      split.
      * intros b' Hb' Hin'. apply elem_of_cons in Hb' as [-> | Hb']; [congruence|].
        by apply Huniq.
      * cbn [scan_bands]. by rewrite Hout.
Qed.

Lemma thresholds_contiguous (k : subscale) :
  contiguous 0 (thresholds k) ∧ covered_upto 0 (thresholds k) = 42.
Proof. destruct k; simpl; repeat split; lia. Qed.

(** The scan agrees with the printed tables on the whole range the tables
    cover. *)
Lemma scan_bands_spec (k : subscale) (s : Z) :
  0 ≤ s ≤ 42 → scan_bands s (thresholds k) = Some (spec_label k s).
Proof.
  intros Hs. destruct k; unfold spec_label; simpl; unfold in_band;
    repeat (case_match; simpl; try lia; try reflexivity).
Qed.

Lemma severity_for_spec (k : subscale) (s : Z) :
  0 ≤ s ≤ 42 → severity_for s (thresholds k) = Ok (spec_label k s).
Proof. intros Hs. unfold severity_for. by rewrite scan_bands_spec. Qed.

Lemma spec_label_literal (k : subscale) (s : Z) :
  bool_decide (spec_label k s ∈ severity_literal) = true.
Proof.
  destruct k; unfold spec_label; repeat case_match; vm_compute; reflexivity.
Qed.

(** C5: for each subscale and each score from 0 to 21, exactly one band of
    the table contains the score, and [severity_for] returns the label of
    that band, which is the label the specification's table gives. *)
Theorem severity_bands_exhaustive_unique (k : subscale) (s : Z) :
  0 ≤ s ≤ 21 →
  ∃ b, b ∈ thresholds k
       ∧ in_band s b = true
       ∧ (∀ b', b' ∈ thresholds k → in_band s b' = true → b' = b)
       ∧ severity_for s (thresholds k) = Ok (band_label b)
       ∧ band_label b = spec_label k s.
Proof.
  intros Hs.
  destruct (thresholds_contiguous k) as [Hc Hup].
  destruct (scan_contiguous s (thresholds k) 0 Hc ltac:(lia))
    as (b & Hb & Hin & Huniq & Hscan).
  exists b. repeat split; try assumption.
  - unfold severity_for. by rewrite Hscan.
  - rewrite scan_bands_spec in Hscan by lia. congruence.
Qed.

Lemma severity_bands_exhaustive_unique_witness :
  ∃ b, b ∈ thresholds Depression
       ∧ in_band 5 b = true
       ∧ (∀ b', b' ∈ thresholds Depression → in_band 5 b' = true → b' = b)
       ∧ severity_for 5 (thresholds Depression) = Ok (band_label b)
       ∧ band_label b = spec_label Depression 5.
Proof. apply (severity_bands_exhaustive_unique Depression 5). lia. Defined.

(** C6: the labels on both sides of the Normal/Mild boundary of each
    subscale. *)
Theorem severity_boundaries :
  severity_for 4 DEP_THRESH = Ok "Normal" ∧ severity_for 5 DEP_THRESH = Ok "Mild"
  ∧ severity_for 3 ANX_THRESH = Ok "Normal" ∧ severity_for 4 ANX_THRESH = Ok "Mild"
  ∧ severity_for 7 STR_THRESH = Ok "Normal" ∧ severity_for 8 STR_THRESH = Ok "Mild".
Proof. repeat split; reflexivity. Qed.

(** ** Validation *)

Lemma answer_range (a : Z) : a ∈ [0; 1; 2; 3] ↔ 0 ≤ a ≤ 3.
Proof. set_unfold. lia. Qed.

Lemma contains_spec (a : Z) (t : list Z) : Py.contains a t = true ↔ a ∈ t.
Proof.
  unfold Py.contains. rewrite existsb_exists. split.
  - intros (x & Hx & Heq). apply Z.eqb_eq in Heq as ->. by apply list_elem_of_In.
  - intros Ha. exists a. split; [by apply list_elem_of_In | apply Z.eqb_refl].
Qed.

Lemma any_spec {A} (p : A → bool) (xs : list A) :
  Py.any p xs = true ↔ ∃ x, x ∈ xs ∧ p x = true.
Proof.
  unfold Py.any. rewrite existsb_exists.
  split; intros (x & Hx & Hp); exists x; split; try done; by apply list_elem_of_In.
Qed.

(** The guard fires exactly on a wrong length or an answer outside 0..3. *)
Lemma rejected_true_iff (l : list Z) :
  rejected l = true ↔ length l ≠ 21%nat ∨ ∃ a, a ∈ l ∧ a ∉ [0; 1; 2; 3].
Proof.
  unfold rejected. rewrite orb_true_iff, negb_true_iff, Z.eqb_neq, any_spec.
  split; (intros [Hlen | (a & Ha & Hbad)]; [left; lia | right; exists a; split; [done|]]).
  - apply negb_true_iff in Hbad. rewrite <- contains_spec. congruence.
  - apply negb_true_iff. rewrite <- contains_spec in Hbad. by destruct (Py.contains a _).
Qed.

Lemma rejected_false_iff (l : list Z) : rejected l = false ↔ valid_answers l.
Proof.
  unfold valid_answers. rewrite Forall_forall. split.
  - intros Hr. split.
    + destruct (decide (length l = 21%nat)) as [|Hne]; [done|].
      assert (rejected l = true) by (apply rejected_true_iff; by left). congruence.
    + intros a Ha. destruct (decide (a ∈ [0; 1; 2; 3])) as [|Hbad]; [done|].
      assert (rejected l = true) by (apply rejected_true_iff; right; eauto). congruence.
  - intros [Hlen Hall]. apply not_true_is_false. rewrite rejected_true_iff.
    intros [Hne | (a & Ha & Hbad)]; [done | by apply Hbad, Hall].
Qed.

(** ** Subscale sums *)

Lemma getitem_in_bounds (l : list Z) (i : Z) :
  0 ≤ i < Z.of_nat (length l) → Py.getitem l i = Ok (nth (Z.to_nat i) l 0).
Proof.
  intros Hi. unfold Py.getitem.
  destruct (Z.ltb_spec i 0) as [|_]; [lia|].
  destruct (Z.leb_spec 0 i); [|lia]. destruct (Z.ltb_spec i (Z.of_nat (length l))); [|lia].
  simpl. destruct (l !! Z.to_nat i) as [x|] eqn:Hl.
  - f_equal. symmetry. by apply nth_lookup_Some with (d := 0) in Hl.
  - apply lookup_ge_None in Hl. lia.
Qed.

Lemma mapM_getitem (l : list Z) (idx : list Z) :
  Forall (fun i => 0 ≤ i < Z.of_nat (length l)) idx →
  mapM (Py.getitem l) idx = Ok (answers_at l idx).
Proof.
  induction 1 as [|i idx Hi _ IH]; [reflexivity|].
  cbn [mapM]. rewrite getitem_in_bounds by done. cbn. rewrite IH. reflexivity.
Qed.

Lemma sum_at_in_bounds (l : list Z) (idx : list Z) :
  Forall (fun i => 0 ≤ i < Z.of_nat (length l)) idx →
  sum_at l idx = Ok (Py.sum (answers_at l idx)).
Proof. intros H. unfold sum_at. by rewrite mapM_getitem. Qed.

Lemma foldl_add_shift (xs : list Z) : ∀ acc, foldl Z.add acc xs = acc + Py.sum xs.
Proof.
  unfold Py.sum. induction xs as [|x xs IH]; intros acc; simpl; [lia|].
  rewrite (IH (acc + x)), (IH (0 + x)). lia.
Qed.

Lemma sum_cons (x : Z) (xs : list Z) : Py.sum (x :: xs) = x + Py.sum xs.
Proof. unfold Py.sum at 1. simpl. by rewrite foldl_add_shift. Qed.

Lemma sum_bounds (xs : list Z) :
  Forall (fun a => 0 ≤ a ≤ 3) xs → 0 ≤ Py.sum xs ≤ 3 * Z.of_nat (length xs).
Proof.
  induction 1 as [|x xs Hx _ IH]; [by vm_compute|].
  rewrite sum_cons. simpl length. lia.
Qed.

Lemma indices_in_range (k : subscale) :
  Forall (fun i => 0 ≤ i ≤ 20) (items_0based k).
Proof. destruct k; repeat constructor; lia. Qed.

Lemma valid_in_range (l : list Z) :
  valid_answers l → length l = 21%nat ∧ Forall (fun a => 0 ≤ a ≤ 3) l.
Proof.
  intros [Hlen Hall]. split; [done|].
  eapply Forall_impl; [exact Hall|]. intros a. apply answer_range.
Qed.

Lemma subscale_score_bounds (l : list Z) (k : subscale) :
  valid_answers l → 0 ≤ Py.sum (answers_at l (items_0based k)) ≤ 21.
Proof.
  intros Hv. destruct (valid_in_range l Hv) as [Hlen Hall].
  assert (Hb : Forall (fun a => 0 ≤ a ≤ 3) (answers_at l (items_0based k))).
  { unfold answers_at. apply Forall_map.
    eapply Forall_impl; [apply indices_in_range|]. intros i Hi. cbn beta in *.
    rewrite Forall_forall in Hall. apply Hall, list_elem_of_In, nth_In. rewrite Hlen. lia. }
  apply sum_bounds in Hb.
  replace (length (answers_at l (items_0based k))) with 7%nat in Hb
    by (unfold answers_at; rewrite length_map; by destruct k).
  lia.
Qed.

Lemma compute_result_valid (l : list Z) :
  valid_answers l → compute_result l = Ok (scored l).
Proof.
  intros Hv.
  assert (Hidx : ∀ k, Forall (fun i => 0 ≤ i < Z.of_nat (length l)) (items_0based k)).
  { intros k. destruct Hv as [-> _].
    eapply Forall_impl; [apply indices_in_range|]. intros i Hi. cbn beta in *. lia. }
  pose proof (subscale_score_bounds l Depression Hv) as Hd.
  pose proof (subscale_score_bounds l Anxiety Hv) as Ha.
  pose proof (subscale_score_bounds l Stress Hv) as Hs.
  cbn [items_0based] in Hd, Ha, Hs.
  unfold compute_result.
  rewrite (sum_at_in_bounds l DEP_I (Hidx Depression)). cbn [mbind py_bind].
  rewrite (sum_at_in_bounds l ANX_I (Hidx Anxiety)). cbn [mbind py_bind].
  rewrite (sum_at_in_bounds l STR_I (Hidx Stress)). cbn [mbind py_bind].
  rewrite (severity_for_spec Depression) by lia. cbn [mbind py_bind].
  rewrite (severity_for_spec Anxiety) by lia. cbn [mbind py_bind].
  rewrite (severity_for_spec Stress) by lia. cbn [mbind py_bind].
  unfold new_DASSResult. cbn [forallb].
  rewrite !spec_label_literal. reflexivity.
Qed.

Lemma sum_items_shift (l : list Z) (items : list Z) :
  sum_items l items = Py.sum (answers_at l (map (fun i => i - 1) items)).
Proof.
  unfold sum_items, answers_at.
  induction items as [|i items IH]; [reflexivity|].
  cbn [map foldr]. rewrite sum_cons, IH. reflexivity.
Qed.

(** The three subscales together use every answer exactly once. *)
Lemma total_is_sum_of_subscales (l : list Z) :
  length l = 21%nat →
  Py.sum l = Py.sum (answers_at l DEP_I) + Py.sum (answers_at l ANX_I)
             + Py.sum (answers_at l STR_I).
Proof.
  intros Hlen.
  do 21 (destruct l as [|? l]; [discriminate|]).
  destruct l; [|discriminate].
  unfold Py.sum, answers_at, DEP_I, ANX_I, STR_I; simpl. lia.
Qed.

Lemma total_bounds (l : list Z) : valid_answers l → 0 ≤ Py.sum l ≤ 63.
Proof.
  intros Hv. destruct (valid_in_range l Hv) as [Hlen Hall].
  apply sum_bounds in Hall. rewrite Hlen in Hall. lia.
Qed.

(** ** The endpoint *)

Section EndpointFacts.

Context {Store : Type}.
Variable create_document :
  string → gmap string pyval → Store → persisted * Store.

(** On a valid request the endpoint computes [scored] and then makes
    exactly one call of the collaborator, whose outcome only decides the
    identity field. *)
Lemma score_dass_valid (a : DASSAssessment) (st : Store) :
  valid_answers (answers a) →
  score_dass create_document a st =
    match create_document "dassassessment" (document a (scored (answers a))) st with
    | (Inserted inserted_id, st') =>
        (Ok (set_assessment_id (scored (answers a)) inserted_id), st')
    | (Failed _, st') => (Ok (scored (answers a)), st')
    end.
Proof.
  intros Hv. unfold score_dass.
  rewrite (proj2 (rejected_false_iff _) Hv), (compute_result_valid _ Hv).
  reflexivity.
Qed.

Lemma score_dass_rejected (a : DASSAssessment) (st : Store) :
  rejected (answers a) = true →
  score_dass create_document a st = (Raise bad_request, st).
Proof. intros Hr. unfold score_dass. by rewrite Hr. Qed.

(** Whatever the collaborator does, a valid request is answered with the
    scores, labels and total of [scored]. *)
Lemma score_dass_fields (a : DASSAssessment) (st : Store) :
  valid_answers (answers a) →
  ∃ r st', score_dass create_document a st = (Ok r, st')
    ∧ depression_score r = Py.sum (answers_at (answers a) DEP_I)
    ∧ anxiety_score r = Py.sum (answers_at (answers a) ANX_I)
    ∧ stress_score r = Py.sum (answers_at (answers a) STR_I)
    ∧ depression_severity r = spec_label Depression (depression_score r)
    ∧ anxiety_severity r = spec_label Anxiety (anxiety_score r)
    ∧ stress_severity r = spec_label Stress (stress_score r)
    ∧ total_score r = Py.sum (answers a).
Proof.
  intros Hv. rewrite (score_dass_valid a st Hv).
  destruct (create_document _ _ st) as [[inserted_id | reason] st'];
    eexists _, st'; repeat split; reflexivity.
Qed.

End EndpointFacts.

(** ** The endpoint on sample requests *)

Example all_zeros_scored :
  (score_dass unavailable all_zeros []).1
  = Ok {| depression_score := 0; anxiety_score := 0; stress_score := 0;
          depression_severity := "Normal"; anxiety_severity := "Normal";
          stress_severity := "Normal"; total_score := 0;
          assessment_id := None |}.
Proof. reflexivity. Qed.

Example all_threes_scored :
  (score_dass in_memory all_threes []).1
  = Ok {| depression_score := 21; anxiety_score := 21; stress_score := 21;
          depression_severity := "Extremely Severe";
          anxiety_severity := "Extremely Severe";
          stress_severity := "Extremely Severe"; total_score := 63;
          assessment_id := Some "0" |}.
Proof. reflexivity. Qed.

Example all_threes_stored :
  length (score_dass in_memory all_threes []).2 = 1%nat
  ∧ ∃ doc, (score_dass in_memory all_threes []).2 = [doc]
           ∧ doc !! "total_score" = Some (VInt 63)
           ∧ doc !! "student_name" = Some (VStr "Ada")
           ∧ doc !! "answers" = Some (VList (replicate 21 3)).
Proof. split; [reflexivity|]. eexists. repeat split; reflexivity. Qed.

Example twenty_answers_rejected :
  score_dass in_memory
    {| student_name := None; student_email := None; age := None;
       context := None; answers := replicate 20 1 |} []
  = (Raise (HTTPException 400 "answers must be 21 integers each 0-3"), []).
Proof. reflexivity. Qed.

Example twenty_two_answers_rejected :
  score_dass in_memory
    {| student_name := None; student_email := None; age := None;
       context := None; answers := replicate 22 1 |} []
  = (Raise (HTTPException 400 "answers must be 21 integers each 0-3"), []).
Proof. reflexivity. Qed.

Example answer_of_four_rejected :
  score_dass in_memory
    {| student_name := None; student_email := None; age := None;
       context := None; answers := replicate 20 1 ++ [4] |} []
  = (Raise (HTTPException 400 "answers must be 21 integers each 0-3"), []).
Proof. reflexivity. Qed.

Example negative_answer_rejected :
  score_dass in_memory
    {| student_name := None; student_email := None; age := None;
       context := None; answers := (-1) :: replicate 20 1 |} []
  = (Raise (HTTPException 400 "answers must be 21 integers each 0-3"), []).
Proof. reflexivity. Qed.

(** The defined fallback of [severity_for], outside the range the endpoint
    can produce. *)
Example fallback_above_table : severity_for 43 DEP_THRESH = Ok "Extremely Severe".
Proof. reflexivity. Qed.

Example fallback_empty_table : severity_for 3 [] = Raise IndexError.
Proof. reflexivity. Qed.

(** ** The claims of the specification *)

Lemma all_zeros_valid : valid_answers (answers all_zeros).
Proof. apply rejected_false_iff. reflexivity. Qed.

Lemma all_threes_valid : valid_answers (answers all_threes).
Proof. apply rejected_false_iff. reflexivity. Qed.

(** C1: on a valid request the three scores are the sums of the answers to
    the items 3,5,10,13,16,17,21 (depression), 2,4,7,9,15,19,20 (anxiety) and
    1,6,8,11,12,14,18 (stress), each read at the array position one below
    its item number; every subscale score lies in 0..21 and the total in
    0..63. *)
Theorem score_dass_subscale_sums {Store : Type}
    (create_document : string → gmap string pyval → Store → persisted * Store)
    (a : DASSAssessment) (st : Store) :
  valid_answers (answers a) →
  ∃ r st', score_dass create_document a st = (Ok r, st')
    ∧ depression_score r = sum_items (answers a) [3; 5; 10; 13; 16; 17; 21]
    ∧ anxiety_score r = sum_items (answers a) [2; 4; 7; 9; 15; 19; 20]
    ∧ stress_score r = sum_items (answers a) [1; 6; 8; 11; 12; 14; 18]
    ∧ 0 ≤ depression_score r ≤ 21
    ∧ 0 ≤ anxiety_score r ≤ 21
    ∧ 0 ≤ stress_score r ≤ 21
    ∧ 0 ≤ total_score r ≤ 63.
Proof.
  intros Hv.
  destruct (score_dass_fields create_document a st Hv)
    as (r & st' & Hrun & Hd & Ha & Hs & _ & _ & _ & Ht).
  exists r, st'. split; [exact Hrun|].
  rewrite Hd, Ha, Hs, Ht, !sum_items_shift.
  do 3 (split; [reflexivity|]).
  split; [exact (subscale_score_bounds _ Depression Hv)|].
  split; [exact (subscale_score_bounds _ Anxiety Hv)|].
  split; [exact (subscale_score_bounds _ Stress Hv)|].
  exact (total_bounds _ Hv).
Qed.

Lemma score_dass_subscale_sums_witness :
  valid_answers (answers all_threes)
  ∧ ∃ r st', score_dass in_memory all_threes [] = (Ok r, st')
    ∧ depression_score r = sum_items (answers all_threes) [3; 5; 10; 13; 16; 17; 21]
    ∧ anxiety_score r = sum_items (answers all_threes) [2; 4; 7; 9; 15; 19; 20]
    ∧ stress_score r = sum_items (answers all_threes) [1; 6; 8; 11; 12; 14; 18]
    ∧ 0 ≤ depression_score r ≤ 21
    ∧ 0 ≤ anxiety_score r ≤ 21
    ∧ 0 ≤ stress_score r ≤ 21
    ∧ 0 ≤ total_score r ≤ 63.
Proof.
  split; [exact all_threes_valid|].
  apply (score_dass_subscale_sums in_memory all_threes []). exact all_threes_valid.
Defined.

(** C2: the endpoint raises the 400 error exactly when the list has a length
    other than 21 or holds a value outside 0,1,2,3; the rejection leaves the
    store untouched whatever the collaborator is; no other error is ever
    raised, and exactly the valid requests are answered with a result. *)
Theorem score_dass_rejects_iff {Store : Type}
    (create_document : string → gmap string pyval → Store → persisted * Store)
    (a : DASSAssessment) (st : Store) :
  bad_request = HTTPException 400 "answers must be 21 integers each 0-3"
  ∧ (length (answers a) ≠ 21%nat ∨ (∃ x, x ∈ answers a ∧ x ∉ [0; 1; 2; 3])
       ↔ score_dass create_document a st = (Raise bad_request, st))
  ∧ (∀ e st', score_dass create_document a st = (Raise e, st') →
       e = bad_request ∧ st' = st)
  ∧ (valid_answers (answers a)
       ↔ ∃ r st', score_dass create_document a st = (Ok r, st')).
Proof.
  split; [reflexivity|].
  destruct (rejected (answers a)) eqn:Hr.
  - pose proof (score_dass_rejected create_document a st Hr) as Hrun.
    rewrite Hrun. split; [|split].
    + split; [done | intros _; by apply rejected_true_iff].
    + intros e st' Heq. by injection Heq as <- <-.
    + split.
      * intros Hv. apply rejected_false_iff in Hv. congruence.
      * intros (r & st' & Hok). discriminate.
  - pose proof (proj1 (rejected_false_iff _) Hr) as Hv.
    destruct (score_dass_fields create_document a st Hv) as (r & st' & Hrun & _).
    rewrite Hrun. split; [|split].
    + split; [|discriminate].
      intros Hbad. apply rejected_true_iff in Hbad. congruence.
    + intros e st'' Heq. discriminate.
    + split; [eauto | done].
Qed.

(** C3: on a valid request the total, computed as the sum of all 21
    answers, equals the sum of the three subscale scores. *)
Theorem total_equals_subscale_sum {Store : Type}
    (create_document : string → gmap string pyval → Store → persisted * Store)
    (a : DASSAssessment) (st : Store) :
  valid_answers (answers a) →
  ∃ r st', score_dass create_document a st = (Ok r, st')
    ∧ total_score r = Py.sum (answers a)
    ∧ total_score r = depression_score r + anxiety_score r + stress_score r.
Proof.
  intros Hv.
  destruct (score_dass_fields create_document a st Hv)
    as (r & st' & Hrun & Hd & Ha & Hs & _ & _ & _ & Ht).
  exists r, st'. split; [exact Hrun|]. split; [exact Ht|].
  rewrite Hd, Ha, Hs, Ht. apply total_is_sum_of_subscales, Hv.
Qed.

Lemma total_equals_subscale_sum_witness :
  valid_answers (answers all_threes)
  ∧ ∃ r st', score_dass unavailable all_threes [] = (Ok r, st')
    ∧ total_score r = Py.sum (answers all_threes)
    ∧ total_score r = depression_score r + anxiety_score r + stress_score r.
Proof.
  split; [exact all_threes_valid|].
  apply (total_equals_subscale_sum unavailable all_threes []). exact all_threes_valid.
Defined.

(** C4: the three item sets have seven elements each, are pairwise disjoint
    and together are exactly the items 1..21; the same holds for the array
    positions 0..20 obtained by subtracting one. *)
Theorem index_sets_partition :
  (∀ k, size (item_set k) = 7%nat ∧ size (index_set k) = 7%nat)
  ∧ (item_set Depression ## item_set Anxiety
     ∧ item_set Depression ## item_set Stress
     ∧ item_set Anxiety ## item_set Stress)
  ∧ (∀ i, i ∈ item_set Depression ∪ item_set Anxiety ∪ item_set Stress ↔ 1 ≤ i ≤ 21)
  ∧ (index_set Depression ## index_set Anxiety
     ∧ index_set Depression ## index_set Stress
     ∧ index_set Anxiety ## index_set Stress)
  ∧ (∀ i, i ∈ index_set Depression ∪ index_set Anxiety ∪ index_set Stress ↔ 0 ≤ i ≤ 20).
Proof.
  split; [intros k; split; apply item_sets_size|].
  split; [exact item_sets_disjoint|].
  split; [exact item_sets_cover|].
  split; [exact index_sets_disjoint | exact index_sets_cover].
Qed.

(** C7: when the call of the collaborator fails on a valid request, the
    endpoint still returns the computed result, with no identity assigned,
    and raises nothing. *)
Theorem persistence_failure_swallowed {Store : Type}
    (create_document : string → gmap string pyval → Store → persisted * Store)
    (a : DASSAssessment) (st st' : Store) (reason : string) :
  valid_answers (answers a) →
  create_document "dassassessment" (document a (scored (answers a))) st
    = (Failed reason, st') →
  ∃ r, score_dass create_document a st = (Ok r, st')
    ∧ r = scored (answers a)
    ∧ assessment_id r = None
    ∧ compute_result (answers a) = Ok r.
Proof.
  intros Hv Hfail. exists (scored (answers a)).
  rewrite (score_dass_valid create_document a st Hv), Hfail.
  repeat split. by rewrite compute_result_valid.
Qed.

Lemma persistence_failure_swallowed_witness :
  valid_answers (answers all_zeros)
  ∧ unavailable "dassassessment" (document all_zeros (scored (answers all_zeros))) []
      = (Failed "Database not available", [])
  ∧ ∃ r, score_dass unavailable all_zeros [] = (Ok r, [])
      ∧ r = scored (answers all_zeros)
      ∧ assessment_id r = None
      ∧ compute_result (answers all_zeros) = Ok r.
Proof.
  split; [exact all_zeros_valid|]. split; [reflexivity|].
  apply (persistence_failure_swallowed unavailable all_zeros [] []
           "Database not available" all_zeros_valid).
  reflexivity.
Defined.

(** C8: two invocations on the same valid answers, whatever the other
    request fields, the stores and the collaborators are, return the same
    three scores, the same three labels and the same total. *)
Theorem scoring_deterministic {Store1 Store2 : Type}
    (cd1 : string → gmap string pyval → Store1 → persisted * Store1)
    (cd2 : string → gmap string pyval → Store2 → persisted * Store2)
    (a1 a2 : DASSAssessment) (st1 : Store1) (st2 : Store2) :
  valid_answers (answers a1) →
  answers a2 = answers a1 →
  ∃ r1 r2 st1' st2',
    score_dass cd1 a1 st1 = (Ok r1, st1')
    ∧ score_dass cd2 a2 st2 = (Ok r2, st2')
    ∧ scoring_fields r1 = scoring_fields r2
    ∧ total_score r1 = total_score r2.
Proof.
  intros Hv1 Heq.
  assert (Hv2 : valid_answers (answers a2)) by (by rewrite Heq).
  destruct (score_dass_fields cd1 a1 st1 Hv1)
    as (r1 & st1' & Hrun1 & Hd1 & Ha1 & Hs1 & Hds1 & Has1 & Hss1 & Ht1).
  destruct (score_dass_fields cd2 a2 st2 Hv2)
    as (r2 & st2' & Hrun2 & Hd2 & Ha2 & Hs2 & Hds2 & Has2 & Hss2 & Ht2).
  exists r1, r2, st1', st2'. split; [exact Hrun1|]. split; [exact Hrun2|].
  unfold scoring_fields.
  rewrite Hds1, Has1, Hss1, Hds2, Has2, Hss2, Hd1, Ha1, Hs1, Hd2, Ha2, Hs2, Ht1, Ht2, Heq.
  split; reflexivity.
Qed.

Lemma scoring_deterministic_witness :
  valid_answers (answers all_threes)
  ∧ ∃ r1 r2 st1' st2',
      score_dass in_memory all_threes [] = (Ok r1, st1')
      ∧ score_dass in_memory all_threes (score_dass in_memory all_threes []).2
          = (Ok r2, st2')
      ∧ scoring_fields r1 = scoring_fields r2
      ∧ total_score r1 = total_score r2.
Proof.
  split; [exact all_threes_valid|].
  apply (scoring_deterministic in_memory in_memory all_threes all_threes []
           (score_dass in_memory all_threes []).2 all_threes_valid).
  reflexivity.
Defined.

(** C9: on a valid list every index of the three tables lies in 0..20 and
    its read succeeds, every subscale sum lies in 0..21, the loop of
    [severity_for] returns on it (the fallback is not reached), and the
    tables are contiguous from 0 to 42, so that the loop returns on every
    score of that range. *)
Theorem accesses_in_bounds_fallback_unreachable (l : list Z) :
  valid_answers l →
  (∀ k i, i ∈ items_0based k → 0 ≤ i ≤ 20 ∧ ∃ x, Py.getitem l i = Ok x)
  ∧ (∀ k, ∃ s, sum_at l (items_0based k) = Ok s ∧ 0 ≤ s ≤ 21
          ∧ is_Some (scan_bands s (thresholds k)))
  ∧ (∀ k, contiguous 0 (thresholds k) ∧ covered_upto 0 (thresholds k) = 42)
  ∧ (∀ k s, 0 ≤ s ≤ 42 → is_Some (scan_bands s (thresholds k))).
Proof.
  intros Hv. pose proof Hv as [Hlen _].
  assert (Hidx : ∀ k i, i ∈ items_0based k → 0 ≤ i ≤ 20).
  { intros k i Hi. pose proof (indices_in_range k) as Hall.
    rewrite Forall_forall in Hall. by apply Hall. }
  split; [|split; [|split]].
  - intros k i Hi. specialize (Hidx k i Hi). split; [exact Hidx|].
    eexists. apply getitem_in_bounds. rewrite Hlen. lia.
  - intros k. exists (Py.sum (answers_at l (items_0based k))).
    pose proof (subscale_score_bounds l k Hv) as Hb.
    split; [|split; [exact Hb|]].
    + apply sum_at_in_bounds, Forall_forall. intros i Hi.
      specialize (Hidx k i Hi). rewrite Hlen. lia.
    + rewrite scan_bands_spec by lia. by eexists.
  - exact thresholds_contiguous.
  - intros k s Hs. rewrite scan_bands_spec by lia. by eexists.
Qed.

Lemma accesses_in_bounds_fallback_unreachable_witness :
  valid_answers (answers all_threes)
  ∧ (∀ k i, i ∈ items_0based k →
       0 ≤ i ≤ 20 ∧ ∃ x, Py.getitem (answers all_threes) i = Ok x)
  ∧ (∀ k, ∃ s, sum_at (answers all_threes) (items_0based k) = Ok s ∧ 0 ≤ s ≤ 21
          ∧ is_Some (scan_bands s (thresholds k)))
  ∧ (∀ k, contiguous 0 (thresholds k) ∧ covered_upto 0 (thresholds k) = 42)
  ∧ (∀ k s, 0 ≤ s ≤ 42 → is_Some (scan_bands s (thresholds k))).
Proof.
  split; [exact all_threes_valid|].
  apply (accesses_in_bounds_fallback_unreachable (answers all_threes)).
  exact all_threes_valid.
Defined.

(** C10: on a valid request, a run whose persistence succeeds and a run
    whose persistence fails return the same scores, labels and total; the
    successful run differs only in that its identity field holds the
    identity the collaborator returned, and the failed run leaves it unset. *)
Theorem persistence_only_sets_identity {Store1 Store2 : Type}
    (cd_ok : string → gmap string pyval → Store1 → persisted * Store1)
    (cd_fail : string → gmap string pyval → Store2 → persisted * Store2)
    (a : DASSAssessment) (st1 st1' : Store1) (st2 st2' : Store2)
    (inserted_id reason : string) :
  valid_answers (answers a) →
  cd_ok "dassassessment" (document a (scored (answers a))) st1
    = (Inserted inserted_id, st1') →
  cd_fail "dassassessment" (document a (scored (answers a))) st2
    = (Failed reason, st2') →
  ∃ r_ok r_fail,
    score_dass cd_ok a st1 = (Ok r_ok, st1')
    ∧ score_dass cd_fail a st2 = (Ok r_fail, st2')
    ∧ scoring_fields r_ok = scoring_fields r_fail
    ∧ total_score r_ok = total_score r_fail
    ∧ assessment_id r_ok = Some inserted_id
    ∧ assessment_id r_fail = None
    ∧ r_ok = set_assessment_id r_fail inserted_id.
Proof.
  intros Hv Hok Hfail.
  exists (set_assessment_id (scored (answers a)) inserted_id), (scored (answers a)).
  rewrite (score_dass_valid cd_ok a st1 Hv), Hok.
  rewrite (score_dass_valid cd_fail a st2 Hv), Hfail.
  repeat split.
Qed.

Lemma persistence_only_sets_identity_witness :
  valid_answers (answers all_threes)
  ∧ ∃ r_ok r_fail,
      score_dass in_memory all_threes []
        = (Ok r_ok, [document all_threes (scored (answers all_threes))])
      ∧ score_dass unavailable all_threes [] = (Ok r_fail, [])
      ∧ scoring_fields r_ok = scoring_fields r_fail
      ∧ total_score r_ok = total_score r_fail
      ∧ assessment_id r_ok = Some "0"
      ∧ assessment_id r_fail = None
      ∧ r_ok = set_assessment_id r_fail "0".
Proof.
  split; [exact all_threes_valid|].
  apply (persistence_only_sets_identity in_memory unavailable all_threes
           [] [document all_threes (scored (answers all_threes))] [] []
           "0" "Database not available" all_threes_valid); reflexivity.
Defined.

(** ** Further properties of [severity_for] *)

Lemma scan_bands_Some (s : Z) (bands : list band) (label : string) :
  scan_bands s bands = Some label →
  ∃ b, b ∈ bands ∧ in_band s b = true ∧ label = band_label b.
Proof.
  induction bands as [|b rest IH]; [discriminate|].
  cbn [scan_bands]. destruct (in_band s b) eqn:Hin.
  - intros [= <-]. exists b. split; [apply elem_of_cons; by left | done].
  - intros Hrest. destruct (IH Hrest) as (b' & Hb' & Hin' & ->).
    exists b'. split; [apply elem_of_cons; by right | done].
Qed.

Lemma scan_bands_None (s : Z) (bands : list band) :
  scan_bands s bands = None ↔ Forall (fun b => in_band s b = false) bands.
Proof.
  induction bands as [|b rest IH]; cbn [scan_bands].
  - split; [constructor | done].
  - destruct (in_band s b) eqn:Hin.
    + split; [discriminate|]. intros H. apply Forall_cons in H as [H _]. congruence.
    + rewrite IH. split; [by constructor | intros H; by apply Forall_cons in H as [_ H]].
Qed.

(** Outside the range of the tables no band matches. *)
Lemma scan_bands_outside (k : subscale) (s : Z) :
  ¬ 0 ≤ s ≤ 42 → scan_bands s (thresholds k) = None.
Proof.
  intros Hs. apply scan_bands_None.
  destruct k; repeat constructor; apply not_true_is_false;
    rewrite in_band_bounds; simpl; lia.
Qed.

(** X1: [severity_for] raises, with [IndexError], exactly on an empty
    table; on any other table it returns, for every score, the label of one
    of the table's bands. *)
Theorem severity_for_raises_iff_empty (s : Z) (bands : list band) :
  (severity_for s bands = Raise IndexError ↔ bands = [])
  ∧ (∀ e, severity_for s bands = Raise e → e = IndexError)
  ∧ (bands ≠ [] → ∃ b, b ∈ bands ∧ severity_for s bands = Ok (band_label b)).
Proof.
  unfold severity_for.
  destruct (scan_bands s bands) as [label|] eqn:Hscan.
  - apply scan_bands_Some in Hscan as (b & Hb & _ & ->).
    split; [|split].
    + split; [discriminate|]. intros ->. by apply elem_of_nil in Hb.
    + discriminate.
    + intros _. by exists b.
  - destruct (last bands) as [b|] eqn:Hlast.
    + pose proof (last_Some_elem_of _ _ Hlast) as Hb.
      split; [|split].
      * split; [discriminate|]. intros ->. discriminate.
      * discriminate.
      * intros _. by exists b.
    + apply last_None in Hlast as ->.
      split; [|split]; [done | congruence | done].
Qed.

(** X2: the first band that contains the score decides the label, also when
    later bands contain the score too. *)
Theorem severity_for_first_match (s : Z) (pre post : list band) (b : band) :
  Forall (fun b' => in_band s b' = false) pre →
  in_band s b = true →
  severity_for s (pre ++ b :: post) = Ok (band_label b).
Proof.
  intros Hpre Hb. unfold severity_for.
  assert (scan_bands s (pre ++ b :: post) = Some (band_label b)) as ->; [|done].
  induction Hpre as [|b' pre Hb' _ IH]; cbn [app scan_bands].
  - by rewrite Hb.
  - by rewrite Hb'.
Qed.

Lemma severity_for_first_match_witness :
  severity_for 5 ([(0, 4, "A")] ++ (3, 9, "B") :: [(3, 5, "C")]) = Ok "B".
Proof.
  apply (severity_for_first_match 5 [(0, 4, "A")] [(3, 5, "C")] (3, 9, "B")).
  - repeat constructor.
  - reflexivity.
Defined.

(** The label [severity_for] gives on the tables of the service, for every
    integer. *)
Lemma severity_for_every_integer (k : subscale) (s : Z) :
  severity_for s (thresholds k)
  = Ok (if 0 <=? s then spec_label k s else "Extremely Severe").
Proof.
  destruct (decide (0 ≤ s ≤ 42)) as [Hin | Hout].
  - rewrite severity_for_spec by done. destruct (Z.leb_spec 0 s); [done | lia].
  - unfold severity_for. rewrite scan_bands_outside by done.
    destruct (Z.leb_spec 0 s).
    + assert (42 < s) by lia.
      destruct k; cbn [last thresholds DEP_THRESH ANX_THRESH STR_THRESH band_label];
        unfold spec_label;
        repeat (match goal with
                | |- context [?a <=? ?b] => destruct (Z.leb_spec a b); [lia|]
                end); reflexivity.
    + by destruct k.
Qed.

(** X3: on the three tables of the service a score outside 0..42, a
    negative one included, is labelled "Extremely Severe" by the fallback,
    and every integer score gets one of the five labels of the result
    type. *)
Theorem severity_for_out_of_range (k : subscale) (s : Z) :
  (¬ 0 ≤ s ≤ 42 → severity_for s (thresholds k) = Ok "Extremely Severe")
  ∧ ∃ label, severity_for s (thresholds k) = Ok label ∧ label ∈ severity_literal.
Proof.
  rewrite severity_for_every_integer. split.
  - intros Hout. destruct (Z.leb_spec 0 s); [|done].
    assert (42 < s) by lia. destruct k; unfold spec_label;
      repeat (match goal with
              | |- context [?a <=? ?b] => destruct (Z.leb_spec a b); [lia|]
              end); reflexivity.
  - eexists. split; [reflexivity|].
    destruct (0 <=? s); [|set_solver].
    pose proof (spec_label_literal k s) as H. by apply bool_decide_eq_true in H.
Qed.

(** X4: on each table of the service the severity never decreases when a
    non-negative score increases. *)
Theorem severity_monotone (k : subscale) (s1 s2 : Z) :
  0 ≤ s1 ≤ s2 →
  ∃ l1 l2 r1 r2,
    severity_for s1 (thresholds k) = Ok l1
    ∧ severity_for s2 (thresholds k) = Ok l2
    ∧ severity_rank l1 = Some r1
    ∧ severity_rank l2 = Some r2
    ∧ (r1 ≤ r2)%nat.
Proof.
  intros Hs. rewrite !severity_for_every_integer.
  destruct (Z.leb_spec 0 s1); [|lia]. destruct (Z.leb_spec 0 s2); [|lia].
  destruct k; unfold spec_label;
    repeat (match goal with
            | |- context [?a <=? ?b] => destruct (Z.leb_spec a b)
            end);
    first [ exfalso; lia
          | do 4 eexists; repeat split; try reflexivity; vm_compute; lia ].
Qed.

Lemma severity_monotone_witness :
  ∃ l1 l2 r1 r2,
    severity_for 6 (thresholds Anxiety) = Ok l1
    ∧ severity_for 9 (thresholds Anxiety) = Ok l2
    ∧ severity_rank l1 = Some r1
    ∧ severity_rank l2 = Some r2
    ∧ (r1 ≤ r2)%nat.
Proof. apply (severity_monotone Anxiety 6 9). lia. Defined.

(** ** Further properties of [score_dass] *)

(** X5: in the result of a valid request each severity label is the one
    [severity_for] gives for the score stored beside it, which is the label
    of the printed table, and is one of the five labels of the result type. *)
Theorem result_labels_match_scores {Store : Type}
    (create_document : string → gmap string pyval → Store → persisted * Store)
    (a : DASSAssessment) (st : Store) :
  valid_answers (answers a) →
  ∃ r st', score_dass create_document a st = (Ok r, st')
    ∧ ∀ k, severity_for (score_of k r) (thresholds k) = Ok (severity_of k r)
           ∧ severity_of k r = spec_label k (score_of k r)
           ∧ severity_of k r ∈ severity_literal.
Proof.
  intros Hv.
  destruct (score_dass_fields create_document a st Hv)
    as (r & st' & Hrun & Hd & Ha & Hs & Hds & Has & Hss & _).
  exists r, st'. split; [exact Hrun|]. intros k.
  assert (Hlabel : severity_of k r = spec_label k (score_of k r)) by by destruct k.
  assert (Hb : 0 ≤ score_of k r ≤ 21).
  { pose proof (subscale_score_bounds _ k Hv) as Hb.
    destruct k; cbn [score_of items_0based] in *; congruence. }
  rewrite Hlabel. split; [|split; [reflexivity|]].
  - apply severity_for_spec. lia.
  - pose proof (spec_label_literal k (score_of k r)) as H.
    by apply bool_decide_eq_true in H.
Qed.

Lemma result_labels_match_scores_witness :
  ∃ r st', score_dass in_memory all_threes [] = (Ok r, st')
    ∧ ∀ k, severity_for (score_of k r) (thresholds k) = Ok (severity_of k r)
           ∧ severity_of k r = spec_label k (score_of k r)
           ∧ severity_of k r ∈ severity_literal.
Proof.
  apply (result_labels_match_scores in_memory all_threes []). exact all_threes_valid.
Defined.

Lemma score_dass_traced {Store : Type}
    (cd : string → gmap string pyval → Store → persisted * Store)
    (a : DASSAssessment) (log : list (string * gmap string pyval)) (st : Store) :
  valid_answers (answers a) →
  ∃ r st',
    score_dass (traced cd) a (log, st)
    = (Ok r, (log ++ [("dassassessment", document a (scored (answers a)))], st'))
    ∧ (r = scored (answers a)
       ∨ ∃ inserted_id, r = set_assessment_id (scored (answers a)) inserted_id).
Proof.
  intros Hv. rewrite (score_dass_valid (traced cd) a (log, st) Hv).
  unfold traced. cbn [fst snd].
  destruct (cd _ _ st) as [[inserted_id | reason] st'];
    eexists _, st'; (split; [reflexivity|]); [right; by eexists | by left].
Qed.

(** X6: the endpoint calls the collaborator exactly once, for the
    collection "dassassessment", when the answers are valid, and not at all
    when they are not; a rejected request leaves log and store as they were. *)
Theorem score_dass_persists_at_most_once {Store : Type}
    (cd : string → gmap string pyval → Store → persisted * Store)
    (a : DASSAssessment) (log : list (string * gmap string pyval)) (st : Store) :
  (valid_answers (answers a) →
     ∃ doc, (score_dass (traced cd) a (log, st)).2.1 = log ++ [("dassassessment", doc)])
  ∧ (¬ valid_answers (answers a) →
       (score_dass (traced cd) a (log, st)).2 = (log, st)).
Proof.
  split.
  - intros Hv. destruct (score_dass_traced cd a log st Hv) as (r & st' & -> & _).
    by eexists.
  - intros Hnv. rewrite score_dass_rejected; [done|].
    destruct (rejected (answers a)) eqn:Hr; [done|].
    by apply rejected_false_iff in Hr.
Qed.

Lemma document_dom (a : DASSAssessment) (r : DASSResult) :
  dom (document a r) = request_keys ∪ scoring_keys.
Proof.
  unfold document, model_dump, request_keys, scoring_keys.
  rewrite !dom_insert_L, dom_empty_L. set_solver.
Qed.

(** X7: the document handed to the collaborator for a valid request has
    exactly the five request fields, stored as received, and the seven
    scoring fields, equal to those of the returned result; it has no
    "assessment_id" entry. *)
Theorem persisted_document_fields {Store : Type}
    (cd : string → gmap string pyval → Store → persisted * Store)
    (a : DASSAssessment) (log : list (string * gmap string pyval)) (st : Store) :
  valid_answers (answers a) →
  ∃ r doc st',
    score_dass (traced cd) a (log, st) = (Ok r, (log ++ [("dassassessment", doc)], st'))
    ∧ dom doc = request_keys ∪ scoring_keys
    ∧ doc !! "student_name" = Some (of_opt_str (student_name a))
    ∧ doc !! "student_email" = Some (of_opt_str (student_email a))
    ∧ doc !! "age" = Some (of_opt_int (age a))
    ∧ doc !! "context" = Some (of_opt_str (context a))
    ∧ doc !! "answers" = Some (VList (answers a))
    ∧ doc !! "depression_score" = Some (VInt (depression_score r))
    ∧ doc !! "anxiety_score" = Some (VInt (anxiety_score r))
    ∧ doc !! "stress_score" = Some (VInt (stress_score r))
    ∧ doc !! "depression_severity" = Some (VStr (depression_severity r))
    ∧ doc !! "anxiety_severity" = Some (VStr (anxiety_severity r))
    ∧ doc !! "stress_severity" = Some (VStr (stress_severity r))
    ∧ doc !! "total_score" = Some (VInt (total_score r))
    ∧ doc !! "assessment_id" = None.
Proof.
  intros Hv. destruct (score_dass_traced cd a log st Hv) as (r & st' & Hrun & Hr).
  exists r, (document a (scored (answers a))), st'.
  split; [exact Hrun|]. split; [apply document_dom|].
  assert (Hfields : ∀ k, score_of k r = score_of k (scored (answers a))
                         ∧ severity_of k r = severity_of k (scored (answers a))).
  { intros k. destruct Hr as [-> | [inserted_id ->]]; by destruct k. }
  assert (Htotal : total_score r = total_score (scored (answers a))).
  { by destruct Hr as [-> | [inserted_id ->]]. }
  destruct (Hfields Depression) as [Hd Hds].
  destruct (Hfields Anxiety) as [Ha Has].
  destruct (Hfields Stress) as [Hs Hss].
  cbn [score_of severity_of] in *.
  rewrite Hd, Ha, Hs, Hds, Has, Hss, Htotal.
  unfold document, model_dump.
  repeat split; by simplify_map_eq.
Qed.

Lemma persisted_document_fields_witness :
  ∃ r doc st',
    score_dass (traced in_memory) all_threes ([], []) 
    = (Ok r, ([] ++ [("dassassessment", doc)], st'))
    ∧ dom doc = request_keys ∪ scoring_keys
    ∧ doc !! "student_name" = Some (of_opt_str (student_name all_threes))
    ∧ doc !! "student_email" = Some (of_opt_str (student_email all_threes))
    ∧ doc !! "age" = Some (of_opt_int (age all_threes))
    ∧ doc !! "context" = Some (of_opt_str (context all_threes))
    ∧ doc !! "answers" = Some (VList (answers all_threes))
    ∧ doc !! "depression_score" = Some (VInt (depression_score r))
    ∧ doc !! "anxiety_score" = Some (VInt (anxiety_score r))
    ∧ doc !! "stress_score" = Some (VInt (stress_score r))
    ∧ doc !! "depression_severity" = Some (VStr (depression_severity r))
    ∧ doc !! "anxiety_severity" = Some (VStr (anxiety_severity r))
    ∧ doc !! "stress_severity" = Some (VStr (stress_severity r))
    ∧ doc !! "total_score" = Some (VInt (total_score r))
    ∧ doc !! "assessment_id" = None.
Proof.
  apply (persisted_document_fields in_memory all_threes [] []). exact all_threes_valid.
Defined.

Ltac solve_update :=
  split;
  [ apply list_elem_of_In; vm_compute;
    repeat (first [ left; reflexivity | right ]); contradiction
  | split;
    [ let k' := fresh "k" in
      intros k'; destruct k';
      unfold Py.sum, answers_at, items_0based, DEP_I, ANX_I, STR_I; simpl; lia
    | unfold Py.sum; simpl; lia ] ].

(** Replacing one answer moves the sum of the one subscale that reads its
    position, and the sum of all answers, by the difference. *)
Lemma subscale_sums_update (l : list Z) (i : nat) (x : Z) :
  length l = 21%nat → (i < 21)%nat →
  ∃ k, Z.of_nat i ∈ items_0based k
       ∧ (∀ k', Py.sum (answers_at (<[i:=x]> l) (items_0based k'))
                = Py.sum (answers_at l (items_0based k'))
                  + (if decide (k' = k) then x - nth i l 0 else 0))
       ∧ Py.sum (<[i:=x]> l) = Py.sum l + (x - nth i l 0).
Proof.
  intros Hlen Hi.
  do 21 (destruct l as [|? l]; [discriminate|]).
  destruct l; [|discriminate].
  do 21 (destruct i as [|i];
         [ first [ exists Depression; solve_update
                 | exists Anxiety; solve_update
                 | exists Stress; solve_update ]
         | ]).
  lia.
Qed.

(** X8: when one answer of a valid request is replaced by another valid
    value, exactly one subscale score changes, the one whose index set holds
    the position, and it changes by the difference of the two answers, as
    does the total; the other two scores stay as they were. *)
Theorem one_answer_one_subscale {Store : Type}
    (create_document : string → gmap string pyval → Store → persisted * Store)
    (a a' : DASSAssessment) (st st' : Store) (i : nat) (x : Z) :
  valid_answers (answers a) →
  valid_answers (answers a') →
  answers a' = <[i:=x]> (answers a) →
  (i < 21)%nat →
  ∃ r r' st1 st1' k,
    score_dass create_document a st = (Ok r, st1)
    ∧ score_dass create_document a' st' = (Ok r', st1')
    ∧ Z.of_nat i ∈ index_set k
    ∧ score_of k r' = score_of k r + (x - nth i (answers a) 0)
    ∧ (∀ k', k' ≠ k → score_of k' r' = score_of k' r)
    ∧ total_score r' = total_score r + (x - nth i (answers a) 0).
Proof.
  intros Hv Hv' Heq Hi.
  destruct (score_dass_fields create_document a st Hv)
    as (r & st1 & Hrun & Hd & Ha & Hs & _ & _ & _ & Ht).
  destruct (score_dass_fields create_document a' st' Hv')
    as (r' & st1' & Hrun' & Hd' & Ha' & Hs' & _ & _ & _ & Ht').
  destruct (subscale_sums_update (answers a) i x (proj1 Hv) Hi) as (k & Hk & Hsub & Htot).
  exists r, r', st1, st1', k.
  split; [exact Hrun|]. split; [exact Hrun'|].
  split; [unfold index_set; by apply elem_of_list_to_set|].
  assert (Hall : ∀ k', score_of k' r'
                       = score_of k' r + (if decide (k' = k) then x - nth i (answers a) 0 else 0)).
  { intros k'. specialize (Hsub k'). rewrite <- Heq in Hsub.
    destruct k'; cbn [score_of items_0based] in *; congruence. }
  split; [|split].
  - rewrite Hall. by rewrite decide_True.
  - intros k' Hne. rewrite Hall. rewrite decide_False by done. lia.
  - rewrite Ht, Ht', Heq. exact Htot.
Qed.

Lemma one_answer_one_subscale_witness :
  ∃ r r' st1 st1' k,
    score_dass in_memory all_zeros [] = (Ok r, st1)
    ∧ score_dass in_memory
        {| student_name := None; student_email := None; age := None;
           context := None; answers := <[4%nat:=2]> (replicate 21 0) |} []
      = (Ok r', st1')
    ∧ Z.of_nat 4 ∈ index_set k
    ∧ score_of k r' = score_of k r + (2 - nth 4 (answers all_zeros) 0)
    ∧ (∀ k', k' ≠ k → score_of k' r' = score_of k' r)
    ∧ total_score r' = total_score r + (2 - nth 4 (answers all_zeros) 0).
Proof.
  apply (one_answer_one_subscale in_memory all_zeros
           {| student_name := None; student_email := None; age := None;
              context := None; answers := <[4%nat:=2]> (replicate 21 0) |}
           [] [] 4 2).
  - exact all_zeros_valid.
  - apply rejected_false_iff. reflexivity.
  - reflexivity.
  - lia.
Defined.

(** ** The route with its request schema *)

Lemma parse_DASSAssessment_ok (body : DASSAssessment) :
  length (answers body) = 21%nat → age_in_range body →
  parse_DASSAssessment body = Ok body.
Proof.
  unfold parse_DASSAssessment, age_in_range. intros Hlen Hage. rewrite Hlen.
  destruct (age body) as [n|]; [|reflexivity].
  destruct (Z.leb_spec 5 n); [|lia]. destruct (Z.leb_spec n 120); [|lia]. reflexivity.
Qed.

Lemma parse_DASSAssessment_error (body : DASSAssessment) :
  length (answers body) ≠ 21%nat ∨ ¬ age_in_range body →
  parse_DASSAssessment body = Raise ValidationError.
Proof.
  unfold parse_DASSAssessment, age_in_range. intros Hbad.
  destruct (age body) as [n|].
  - destruct (Z.leb_spec 5 n); destruct (Z.leb_spec n 120);
      destruct (Z.leb_spec 21 (Z.of_nat (length (answers body))));
      destruct (Z.leb_spec (Z.of_nat (length (answers body))) 21);
      try reflexivity; exfalso; destruct Hbad as [H' | H']; apply H'; lia.
  - destruct (Z.leb_spec 21 (Z.of_nat (length (answers body))));
      destruct (Z.leb_spec (Z.of_nat (length (answers body))) 21);
      try reflexivity; exfalso; destruct Hbad as [H' | H']; [lia | by apply H'].
Qed.

Lemma age_in_range_dec (body : DASSAssessment) :
  age_in_range body ∨ ¬ age_in_range body.
Proof. unfold age_in_range. destruct (age body); [lia | by left]. Qed.

(** X9: for a body parsed against the schema, a list of a length other than
    21 or an age outside 5..120 is refused at parsing, with a validation
    error and before the endpoint runs; the endpoint's own 400 error is then
    raised exactly for bodies of 21 answers with a value outside 0..3, and
    a result is returned exactly for the remaining bodies. *)
Theorem post_api_score_errors {Store : Type}
    (create_document : string → gmap string pyval → Store → persisted * Store)
    (body : DASSAssessment) (st : Store) :
  (post_api_score create_document body st = (Raise ValidationError, st)
     ↔ length (answers body) ≠ 21%nat ∨ ¬ age_in_range body)
  ∧ (post_api_score create_document body st = (Raise bad_request, st)
       ↔ length (answers body) = 21%nat ∧ age_in_range body
         ∧ ∃ x, x ∈ answers body ∧ x ∉ [0; 1; 2; 3])
  ∧ ((∃ r st', post_api_score create_document body st = (Ok r, st'))
       ↔ age_in_range body ∧ valid_answers (answers body)).
Proof.
  unfold post_api_score.
  destruct (decide (length (answers body) = 21%nat)) as [Hlen | Hlen];
    [destruct (age_in_range_dec body) as [Hage | Hage]|].
  - rewrite (parse_DASSAssessment_ok body Hlen Hage).
    destruct (rejected (answers body)) eqn:Hr.
    + rewrite (score_dass_rejected create_document body st Hr).
      pose proof (proj1 (rejected_true_iff _) Hr) as [Hne | Hbad]; [done|].
      split; [|split].
      * split; [discriminate | intros [? | ?]; done].
      * split; [done | done].
      * split; [intros (r & st' & H'); discriminate|].
        intros [_ Hv]. apply rejected_false_iff in Hv. congruence.
    + pose proof (proj1 (rejected_false_iff _) Hr) as Hv.
      destruct (score_dass_fields create_document body st Hv) as (r & st' & -> & _).
      split; [|split].
      * split; [discriminate | intros [? | ?]; done].
      * split; [discriminate|]. intros (_ & _ & x & Hx & Hbad).
        destruct Hv as [_ Hall]. rewrite Forall_forall in Hall. destruct (Hbad (Hall x Hx)).
      * split; [done | eauto].
  - rewrite (parse_DASSAssessment_error body) by by right.
    split; [|split].
    + split; [by right | done].
    + split; [discriminate | intros (_ & ? & _); done].
    + split; [intros (r & st' & H'); discriminate | intros [? _]; done].
  - rewrite (parse_DASSAssessment_error body) by by left.
    split; [|split].
    + split; [by left | done].
    + split; [discriminate | intros (? & _); done].
    + split; [intros (r & st' & H'); discriminate | intros [_ [? _]]; done].
Qed.

Example twenty_answers_refused_at_parsing :
  post_api_score in_memory
    {| student_name := None; student_email := None; age := None;
       context := None; answers := replicate 20 1 |} []
  = (Raise ValidationError, []).
Proof. reflexivity. Qed.

Example twenty_one_fours_pass_parsing :
  parse_DASSAssessment
    {| student_name := None; student_email := None; age := Some 30;
       context := None; answers := replicate 21 4 |}
  = Ok {| student_name := None; student_email := None; age := Some 30;
          context := None; answers := replicate 21 4 |}
  ∧ post_api_score in_memory
      {| student_name := None; student_email := None; age := Some 30;
         context := None; answers := replicate 21 4 |} []
    = (Raise bad_request, []).
Proof. split; reflexivity. Qed.

(** ** [list_assessments] *)

Section ListingFacts.

Context {O : Type}.
Variable str_other : O → string.

Lemma stringify_id_lookup (d : gmap string (field O)) (key : string) :
  stringify_id str_other d !! key
  = if decide (key = "_id")
    then (fun v => FStr (py_str str_other v)) <$> d !! "_id"
    else d !! key.
Proof.
  unfold stringify_id. destruct (d !! "_id") as [v|] eqn:Hid.
  - case_decide as Hk.
    + subst key. by rewrite lookup_insert_eq.
    + by rewrite lookup_insert_ne.
  - case_decide as Hk; [subst key; by rewrite Hid | done].
Qed.

Lemma stringify_id_dom (d : gmap string (field O)) :
  dom (stringify_id str_other d) = dom d.
Proof.
  unfold stringify_id. destruct (d !! "_id") as [v|] eqn:Hid; [|done].
  apply dom_insert_lookup_L. by rewrite Hid.
Qed.

Lemma stringify_id_idemp (d : gmap string (field O)) :
  stringify_id str_other (stringify_id str_other d) = stringify_id str_other d.
Proof.
  apply map_eq. intros key. rewrite !stringify_id_lookup.
  case_decide; [|done]. by destruct (d !! "_id").
Qed.

End ListingFacts.

(** X10: when the fetch succeeds the route returns the fetched documents in
    their order, each with the same keys; every field other than "_id" is
    returned as stored, and an "_id", where present, is replaced by its
    [str]. *)
Theorem list_assessments_frame {O Store : Type} (str_other : O → string)
    (get_documents : string → Z → Store → fetched O * Store)
    (limit : option Z) (st st' : Store) (docs : list (gmap string (field O))) :
  get_documents "dassassessment" (default 20 limit) st = (Fetched docs, st') →
  ∃ out, list_assessments str_other get_documents limit st = (out, st')
    ∧ length out = length docs
    ∧ ∀ i d, docs !! i = Some d →
        ∃ d', out !! i = Some d'
          ∧ dom d' = dom d
          ∧ (∀ key, key ≠ "_id" → d' !! key = d !! key)
          ∧ d' !! "_id" = (fun v => FStr (py_str str_other v)) <$> d !! "_id".
Proof.
  intros Hget. exists (map (stringify_id str_other) docs).
  unfold list_assessments. rewrite Hget.
  split; [reflexivity|]. split; [apply length_map|].
  intros i d Hd. exists (stringify_id str_other d).
  split; [|split; [|split]].
  - change (map (stringify_id str_other) docs) with (stringify_id str_other <$> docs).
    by rewrite list_lookup_fmap, Hd.
  - apply stringify_id_dom.
  - intros key Hkey. rewrite stringify_id_lookup. by rewrite decide_False.
  - rewrite stringify_id_lookup. by rewrite decide_True.
Qed.

Lemma list_assessments_frame_witness :
  ∃ out,
    list_assessments (O := nat) pretty
      (fun _ limit st => (Fetched (take (Z.to_nat limit) st), st)) None
      [ {[ "_id" := FOther 7%nat; "context" := FStr "class A" ]} ]
    = (out, [ {[ "_id" := FOther 7%nat; "context" := FStr "class A" ]} ])
    ∧ length out = length [ ({[ "_id" := FOther 7%nat; "context" := FStr "class A" ]}
                             : gmap string (field nat)) ]
    ∧ ∀ i d, [ ({[ "_id" := FOther 7%nat; "context" := FStr "class A" ]}
                : gmap string (field nat)) ] !! i = Some d →
        ∃ d', out !! i = Some d'
          ∧ dom d' = dom d
          ∧ (∀ key, key ≠ "_id" → d' !! key = d !! key)
          ∧ d' !! "_id" = (fun v => FStr (py_str pretty v)) <$> d !! "_id".
Proof.
  apply (list_assessments_frame (O := nat) pretty
           (fun _ limit st => (Fetched (take (Z.to_nat limit) st), st)) None).
  reflexivity.
Defined.

(** X11: in the list the route returns every "_id" is a string, and running
    the conversion of the loop over the returned list again changes
    nothing. *)
Theorem list_assessments_ids_are_strings {O Store : Type} (str_other : O → string)
    (get_documents : string → Z → Store → fetched O * Store)
    (limit : option Z) (st : Store) :
  (∀ d v, d ∈ (list_assessments str_other get_documents limit st).1 →
          d !! "_id" = Some v → ∃ s, v = FStr s)
  ∧ map (stringify_id str_other) (list_assessments str_other get_documents limit st).1
    = (list_assessments str_other get_documents limit st).1.
Proof.
  unfold list_assessments.
  destruct (get_documents _ _ st) as [[docs | reason] st']; cbn [fst].
  - split.
    + intros d v Hd Hid. apply list_elem_of_In, in_map_iff in Hd as (d0 & <- & _).
      rewrite stringify_id_lookup, decide_True in Hid by done.
      destruct (d0 !! "_id"); [|discriminate]. injection Hid as <-. by eexists.
    + rewrite map_map. apply map_ext. intros d. apply stringify_id_idemp.
  - split; [|reflexivity]. intros d v Hd. by apply elem_of_nil in Hd.
Qed.


(** ** [test_database] *)


(** X14: the report says "Connected" exactly when the handle is set; without
    a handle the two environment flags stay unset and no collection is
    listed, whatever the environment holds; with a handle a variable is
    reported as set exactly when it is defined and not empty. *)
Theorem test_database_connection {Db : Type} (db : option Db)
    (getenv : string → option string) (list_collection_names : Db → listed) :
  (connection_status (test_database db getenv list_collection_names) = "Connected"
     ↔ is_Some db)
  ∧ (db = None →
       database_url (test_database db getenv list_collection_names) = None
       ∧ database_name (test_database db getenv list_collection_names) = None
       ∧ collections (test_database db getenv list_collection_names) = []
       ∧ database (test_database db getenv list_collection_names)
         = "⚠️  Available but not initialized")
  ∧ (is_Some db →
       (database_url (test_database db getenv list_collection_names) = Some "✅ Set"
          ↔ ∃ v, getenv "DATABASE_URL" = Some v ∧ v ≠ "")
       ∧ (database_url (test_database db getenv list_collection_names) = Some "❌ Not Set"
          ↔ getenv "DATABASE_URL" = None ∨ getenv "DATABASE_URL" = Some "")
       ∧ (database_name (test_database db getenv list_collection_names) = Some "✅ Set"
          ↔ ∃ v, getenv "DATABASE_NAME" = Some v ∧ v ≠ "")
       ∧ (database_name (test_database db getenv list_collection_names) = Some "❌ Not Set"
          ↔ getenv "DATABASE_NAME" = None ∨ getenv "DATABASE_NAME" = Some "")).
Proof.
  assert (Htruthy : ∀ o, (truthy o = true ↔ ∃ v, o = Some v ∧ v ≠ "")
                         ∧ (truthy o = false ↔ o = None ∨ o = Some "")).
  { intros [v|]; cbn [truthy].
    - destruct (String.eqb_spec v "") as [-> | Hne]; cbn [negb].
      + split; split; try done.
        * intros (v & [= <-] & Hne). done.
        * by right.
      + split; split; try done.
        * intros _. by exists v.
        * intros [? | [= ?]]; done.
    - split; split; try done.
      + intros (v & ? & _). done.
      + by left. }
  unfold test_database.
  destruct db as [handle|].
  - split; [|split; [done|]].
    + split; [by eexists|]. intros _.
      by destruct (list_collection_names handle).
    + intros _.
      destruct (Htruthy (getenv "DATABASE_URL")) as [Hu1 Hu0].
      destruct (Htruthy (getenv "DATABASE_NAME")) as [Hn1 Hn0].
      destruct (list_collection_names handle);
        cbn [database_url database_name set_database set_collections
             set_connection_status set_database_url set_database_name];
        destruct (truthy (getenv "DATABASE_URL"));
        destruct (truthy (getenv "DATABASE_NAME"));
        repeat split; try done;
        try (intros _; first [ by apply Hu1 | by apply Hu0 | by apply Hn1 | by apply Hn0 ]);
        try (intros H'; first [ by apply Hu1 in H' | by apply Hu0 in H'
                             | by apply Hn1 in H' | by apply Hn0 in H' ]).
  - split; [|split; [done|]].
    + split; [discriminate | intros [? ?]; discriminate].
    + intros [? ?]. discriminate.
Qed.
